(** * pyprophet.util.compat: the pandas/polars bridge

    A shallow embedding of [src/pyprophet/util/compat.py].  The module is a
    thin shim over two table libraries, so the embedding has three layers:

    - [Py]: the part of the Python object model the shim relies on
      (classes and [isinstance], object identity, the heap, dictionaries
      mutated in place, exceptions, keyword-argument passing);
    - [Lib]: the pandas and polars entry points the shim calls, as an
      interface (they are third-party code);
    - [Compat]: the six functions of [compat.py], statement by statement. *)

From stdpp Require Import base option strings gmap fin_maps.

(** ** The Python object model *)
Module Py.

(** Object identity ([id(obj)]): an address in the heap. *)
Abbreviation ref := nat (only parsing).

(** The classes that can be observed through [type(df)].  Every class the
    shim does not name is [cls_other] with its qualified name. *)
Inductive pyclass : Type :=
| cls_NoneType
| cls_bool
| cls_int
| cls_str
| cls_dict
| cls_pd_DataFrame
| cls_pl_DataFrame
| cls_other (qualname : string).

#[global] Instance pyclass_eq_dec : EqDecision pyclass.
Proof. solve_decision. Defined.

Definition qualname (c : pyclass) : string :=
  match c with
  | cls_NoneType => "NoneType"
  | cls_bool => "bool"
  | cls_int => "int"
  | cls_str => "str"
  | cls_dict => "dict"
  | cls_pd_DataFrame => "pandas.core.frame.DataFrame"
  | cls_pl_DataFrame => "polars.dataframe.frame.DataFrame"
  | cls_other q => q
  end.

(** [str(type(x))], as an f-string interpolates it. *)
Definition class_str (c : pyclass) : string :=
  "<class '" +:+ qualname c +:+ "'>".

(** Values: immediates, or a reference to a heap object. *)
Inductive value : Type :=
| VNone
| VBool (b : bool)
| VInt (n : Z)
| VStr (s : string)
| VRef (r : ref).

#[global] Instance value_eq_dec : EqDecision value.
Proof. solve_decision. Defined.

(** Truthiness, as [if x:] tests it. *)
Definition truthy (v : value) : bool :=
  match v with
  | VNone => false
  | VBool b => b
  | VInt n => negb (Z.eqb n 0)
  | VStr s => negb (String.eqb s "")
  | VRef _ => true
  end.

(** A dictionary with string keys: keyword arguments bind by name. *)
Abbreviation dict := (gmap string value) (only parsing).

(** Exceptions: the exception class and its message. *)
Inductive exn : Type :=
| Exn (cls : string) (msg : string).

Definition TypeError (msg : string) : exn := Exn "TypeError" msg.
Definition KeyError (key : string) : exn := Exn "KeyError" key.

(** What running a piece of Python gives: a value, an exception, or
    [Stuck] where the model assigns no meaning (a dangling reference, an
    attribute used on an object of the wrong class).  No well-formed state
    reaches [Stuck]. *)
Inductive outcome (A : Type) : Type :=
| Return (a : A)
| Raise (e : exn)
| Stuck.
Arguments Return {A} a.
Arguments Raise {A} e.
Arguments Stuck {A}.

Section Heap.
(** The payloads of the two table classes belong to the libraries. *)
Context {PdFrame PlFrame : Type}.

Inductive object : Type :=
| PdDataFrame (f : PdFrame)
| PlDataFrame (f : PlFrame)
| Dict (d : dict)
| Instance (qualname : string).

Definition class_of (o : object) : pyclass :=
  match o with
  | PdDataFrame _ => cls_pd_DataFrame
  | PlDataFrame _ => cls_pl_DataFrame
  | Dict _ => cls_dict
  | Instance q => cls_other q
  end.

(** [type(v)] in heap [h]. *)
Definition type_of (h : gmap ref object) (v : value) : option pyclass :=
  match v with
  | VNone => Some cls_NoneType
  | VBool _ => Some cls_bool
  | VInt _ => Some cls_int
  | VStr _ => Some cls_str
  | VRef r => class_of <$> h !! r
  end.
End Heap.
Arguments object : clear implicits.

End Py.

(** ** The library interface *)
Module Lib.
Import Py.

(** What the shim's callers can observe of a table, in either
    representation: the ordered column names, the number of rows, and the
    cell of a column at a row. *)
Class Frame (F : Type) : Type := {
  columns : F → list string;
  height : F → nat;
  cell : F → string → nat → option value
}.

(** Two tables, possibly of different representations, hold the same data. *)
Definition data_equal {F G : Type} `{Frame F, Frame G} (f : F) (g : G) : Prop :=
  columns f = columns g ∧
  height f = height g ∧
  ∀ (c : string) (i : nat), cell f c i = cell g c i.

(** A table of either representation, observed through its own one. *)
#[global] Instance sum_frame {F G : Type} `{Frame F, Frame G} : Frame (F + G) := {|
  columns t := match t with inl f => columns f | inr g => columns g end;
  height t := match t with inl f => height f | inr g => height g end;
  cell t := match t with inl f => cell f | inr g => cell g end
|}.

(** The entry points of pandas and polars that [compat.py] calls.  The two
    conversions work in memory; readers and writers act on the world
    outside the interpreter (the file system), of type [World].  Each may
    fail with an exception of its own. *)
Class Library (PdFrame PlFrame World : Type) : Type := {
  pd_frame :: Frame PdFrame;
  pl_frame :: Frame PlFrame;
  (** [pl.from_pandas(df)] *)
  impl_from_pandas : PdFrame → exn + PlFrame;
  (** [pl.DataFrame.to_pandas(self)] *)
  impl_to_pandas : PlFrame → exn + PdFrame;
  (** [pl.read_csv(filepath, **kwargs)] *)
  impl_pl_read_csv : string → dict → World → (exn + PlFrame) * World;
  (** [pd.read_csv(filepath, **kwargs)] *)
  impl_pd_read_csv : string → dict → World → (exn + PdFrame) * World;
  (** [pl.DataFrame.write_csv(self, filepath, **kwargs)] *)
  impl_write_csv : PlFrame → string → dict → World → (exn + unit) * World;
  (** [pd.DataFrame.to_csv(self, filepath, **kwargs)] *)
  impl_to_csv : PdFrame → string → dict → World → (exn + unit) * World
}.

(** The calls into the libraries, as the interpreter issues them: the
    receiver or argument by identity, keyword arguments by name. *)
Inductive libcall : Type :=
| Call_pl_from_pandas (df : ref)
| Call_DataFrame_to_pandas (self : ref)
| Call_pl_read_csv (filepath : string) (kwargs : dict)
| Call_pd_read_csv (filepath : string) (kwargs : dict)
| Call_DataFrame_write_csv (self : ref) (filepath : string) (kwargs : dict)
| Call_DataFrame_to_csv (self : ref) (filepath : string) (kwargs : dict).

(** Modelled from the spec: [pl.from_pandas] and [pl.DataFrame.to_pandas]
    are polars code, absent from src/.  The spec calls each a full eager
    conversion and states of its result "the same column names in the same
    order, the same row count, and element-wise-equal data". *)
Class Faithful {PdFrame PlFrame World : Type}
    (lib : Library PdFrame PlFrame World) : Prop := {
  from_pandas_faithful :
    ∀ f : PdFrame, ∃ g : PlFrame, impl_from_pandas f = inr g ∧ data_equal f g;
  to_pandas_faithful :
    ∀ g : PlFrame, ∃ f : PdFrame, impl_to_pandas g = inr f ∧ data_equal g f
}.

End Lib.

(** ** Running Python: heap, world and call log *)
Module Sem.
Import Py Lib.

Section Machine.
Context {PdFrame PlFrame World : Type}.
Context {lib : Library PdFrame PlFrame World}.

(** The heap of objects, the world outside the interpreter, and the calls
    made into the libraries so far (oldest first). *)
Record state : Type := State {
  heap : gmap ref (object PdFrame PlFrame);
  world : World;
  calls : list libcall
}.

(** A computation runs from a state to an outcome and a state: effects made
    before an exception is raised stay. *)
Definition M (A : Type) : Type := state → outcome A * state.

Definition ret {A : Type} (a : A) : M A := λ σ, (Return a, σ).
Definition raise {A : Type} (e : exn) : M A := λ σ, (Raise e, σ).
Definition stuck {A : Type} : M A := λ σ, (Stuck, σ).

Definition bind {A B : Type} (m : M A) (k : A → M B) : M B :=
  λ σ, match m σ with
       | (Return a, σ') => k a σ'
       | (Raise e, σ') => (Raise e, σ')
       | (Stuck, σ') => (Stuck, σ')
       end.

#[global] Instance M_ret : MRet M := @ret.
#[global] Instance M_bind : MBind M := λ A B k m, bind m k.

Definition get_heap : M (gmap ref (object PdFrame PlFrame)) :=
  λ σ, (Return (heap σ), σ).
Definition put_heap (h : gmap ref (object PdFrame PlFrame)) : M unit :=
  λ σ, (Return (), State h (world σ) (calls σ)).

(** Dereference. *)
Definition load (r : ref) : M (object PdFrame PlFrame) :=
  h ← get_heap;
  match h !! r with
  | Some o => ret o
  | None => stuck
  end.

(** A new object gets an identity no live object has. *)
Definition alloc (o : object PdFrame PlFrame) : M ref :=
  h ← get_heap;
  let r := fresh (dom h) in
  put_heap (<[r := o]> h);;
  ret r.

(** [type(v)], and [isinstance(v, c)] as the shim uses it: [c] is one of the
    two DataFrame classes, and no class of [pyclass] is a subclass of
    either, so the test is on the class itself. *)
Definition type_ (v : value) : M pyclass :=
  h ← get_heap;
  match type_of h v with
  | Some c => ret c
  | None => stuck
  end.

Definition isinstance (v : value) (c : pyclass) : M bool :=
  t ← type_ v;
  ret (bool_decide (t = c)).

(** *** Dictionaries, mutated in place *)

Definition load_dict (d : ref) : M dict :=
  o ← load d;
  match o with
  | Dict m => ret m
  | _ => stuck
  end.

Definition store_dict (d : ref) (m : dict) : M unit :=
  h ← get_heap;
  put_heap (<[d := Dict m]> h).

(** [{}] *)
Definition dict_new : M ref := alloc (Dict ∅).

(** [k in d] *)
Definition dict_contains (d : ref) (k : string) : M bool :=
  m ← load_dict d;
  ret (match m !! k with Some _ => true | None => false end).

(** [d[k]] *)
Definition dict_getitem (d : ref) (k : string) : M value :=
  m ← load_dict d;
  match m !! k with
  | Some v => ret v
  | None => raise (KeyError k)
  end.

(** [d[k] = v] *)
Definition dict_setitem (d : ref) (k : string) (v : value) : M unit :=
  m ← load_dict d;
  store_dict d (<[k := v]> m).

(** [d.pop(k)] *)
Definition dict_pop (d : ref) (k : string) : M value :=
  m ← load_dict d;
  match m !! k with
  | Some v => store_dict d (delete k m);; ret v
  | None => raise (KeyError k)
  end.

(** [d.update(other)]: every item of [other] is written into [d], over
    what [d] held under the same key. *)
Definition dict_update (d other : ref) : M unit :=
  m ← load_dict d;
  m' ← load_dict other;
  store_dict d (m' ∪ m).

(** *** Keyword arguments *)

(** A function declared with [**kwargs] receives the keyword arguments
    that name none of its parameters in a dictionary made for this call. *)
Definition collect_kwargs (kw : dict) : M ref := alloc (Dict kw).

(** The call [f(..., **opts)] of a function whose other parameters
    [params] are already given: the items of the caller's mapping become
    keyword arguments; one that names a given parameter is refused. *)
Definition call_unpacking {A : Type} (fname : string) (params : list string)
    (f : dict → M A) (opts : ref) : M A :=
  m ← load_dict opts;
  match List.find (λ p, match m !! p with Some _ => true | None => false end) params with
  | Some p =>
      raise (TypeError (fname +:+ "() got multiple values for argument '" +:+ p +:+ "'"))
  | None => f m
  end.

(** *** Calls into the libraries *)

Definition log (c : libcall) : M unit :=
  λ σ, (Return (), State (heap σ) (world σ) (calls σ ++ [c])).

Definition lift {A : Type} (x : exn + A) : M A :=
  match x with
  | inl e => raise e
  | inr a => ret a
  end.

Definition on_world {A : Type} (f : World → (exn + A) * World) : M A :=
  λ σ, let (x, w) := f (world σ) in lift x (State (heap σ) w (calls σ)).

(** [pl.from_pandas(df)] *)
Definition pl_from_pandas (df : value) : M value :=
  match df with
  | VRef r =>
      o ← load r;
      match o with
      | PdDataFrame f =>
          log (Call_pl_from_pandas r);;
          g ← lift (impl_from_pandas f);
          r' ← alloc (PlDataFrame g);
          ret (VRef r')
      | _ => stuck
      end
  | _ => stuck
  end.

(** [df.to_pandas()] *)
Definition df_to_pandas (df : value) : M value :=
  match df with
  | VRef r =>
      o ← load r;
      match o with
      | PlDataFrame g =>
          log (Call_DataFrame_to_pandas r);;
          f ← lift (impl_to_pandas g);
          r' ← alloc (PdDataFrame f);
          ret (VRef r')
      | _ => stuck
      end
  | _ => stuck
  end.

(** [pl.read_csv(filepath, **kwargs)] *)
Definition pl_read_csv (filepath : string) (kwargs : ref) : M value :=
  kw ← load_dict kwargs;
  log (Call_pl_read_csv filepath kw);;
  g ← on_world (impl_pl_read_csv filepath kw);
  r ← alloc (PlDataFrame g);
  ret (VRef r).

(** [pd.read_csv(filepath, **kwargs)] *)
Definition pd_read_csv (filepath : string) (kwargs : ref) : M value :=
  kw ← load_dict kwargs;
  log (Call_pd_read_csv filepath kw);;
  f ← on_world (impl_pd_read_csv filepath kw);
  r ← alloc (PdDataFrame f);
  ret (VRef r).

(** [df.write_csv(filepath, **kwargs)] *)
Definition df_write_csv (df : value) (filepath : string) (kwargs : ref) : M value :=
  match df with
  | VRef r =>
      o ← load r;
      match o with
      | PlDataFrame g =>
          kw ← load_dict kwargs;
          log (Call_DataFrame_write_csv r filepath kw);;
          on_world (impl_write_csv g filepath kw);;
          ret VNone
      | _ => stuck
      end
  | _ => stuck
  end.

(** [df.to_csv(filepath, **kwargs)] *)
Definition df_to_csv (df : value) (filepath : string) (kwargs : ref) : M value :=
  match df with
  | VRef r =>
      o ← load r;
      match o with
      | PdDataFrame f =>
          kw ← load_dict kwargs;
          log (Call_DataFrame_to_csv r filepath kw);;
          on_world (impl_to_csv f filepath kw);;
          ret VNone
      | _ => stuck
      end
  | _ => stuck
  end.

(** *** Views of a state, for stating properties *)

(** The state [σ] with heap [h]. *)
Definition with_heap (σ : state) (h : gmap ref (object PdFrame PlFrame)) : state :=
  State h (world σ) (calls σ).

(** The table [v] refers to, tagged by its representation: pandas on the
    left, polars on the right. *)
Definition frame_of (h : gmap ref (object PdFrame PlFrame)) (v : value)
    : option (PdFrame + PlFrame) :=
  match v with
  | VRef r =>
      match h !! r with
      | Some (PdDataFrame f) => Some (inl f)
      | Some (PlDataFrame g) => Some (inr g)
      | _ => None
      end
  | _ => None
  end.

End Machine.
Arguments state : clear implicits.
Arguments M : clear implicits.

End Sem.

(** ** [pyprophet/util/compat.py] *)
Module Compat.
Import Py Lib Sem.

Section Functions.
Context {PdFrame PlFrame World : Type}.
Context {lib : Library PdFrame PlFrame World}.

Local Abbreviation M := (Sem.M PdFrame PlFrame World).

(** [f"Expected pd.DataFrame or pl.DataFrame, got {type(df)}"] *)
Definition expected_got (t : pyclass) : string :=
  "Expected pd.DataFrame or pl.DataFrame, got " +:+ class_str t.

Definition to_polars (df : value) : M value :=
  is_pd ← isinstance df cls_pd_DataFrame;
  if (is_pd : bool) then
    pl_from_pandas df
  else
    is_pl ← isinstance df cls_pl_DataFrame;
    if (is_pl : bool) then
      ret df
    else
      t ← type_ df;
      raise (TypeError (expected_got t)).

Definition to_pandas (df : value) : M value :=
  is_pl ← isinstance df cls_pl_DataFrame;
  if (is_pl : bool) then
    df_to_pandas df
  else
    is_pd ← isinstance df cls_pd_DataFrame;
    if (is_pd : bool) then
      ret df
    else
      t ← type_ df;
      raise (TypeError (expected_got t)).

Definition ensure_polars (df : value) : M value := to_polars df.

Definition ensure_pandas (df : value) : M value := to_pandas df.

Definition compatible_read_csv (filepath : string) (use_polars : value)
    (kw : dict) : M value :=
  kwargs ← collect_kwargs kw;
  if truthy use_polars then
    pl_read_csv filepath kwargs
  else
    pd_read_csv filepath kwargs.

Definition compatible_write_csv (df : value) (filepath : string)
    (kw : dict) : M value :=
  kwargs ← collect_kwargs kw;
  is_pl ← isinstance df cls_pl_DataFrame;
  if (is_pl : bool) then
    polars_kwargs ← dict_new;
    has_sep ← dict_contains kwargs "sep";
    (if (has_sep : bool) then
       sep ← dict_getitem kwargs "sep";
       dict_setitem polars_kwargs "separator" sep;;
       dict_pop kwargs "sep";;
       ret ()
     else ret ());;
    has_index ← dict_contains kwargs "index";
    (if (has_index : bool) then
       dict_pop kwargs "index";;
       ret ()
     else ret ());;
    dict_update polars_kwargs kwargs;;
    df_write_csv df filepath polars_kwargs;;
    ret VNone
  else
    is_pd ← isinstance df cls_pd_DataFrame;
    if (is_pd : bool) then
      df_to_csv df filepath kwargs;;
      ret VNone
    else
      t ← type_ df;
      raise (TypeError (expected_got t)).

(** The call [compatible_write_csv(df, filepath, **opts)] with the
    caller's mapping [opts]. *)
Definition compatible_write_csv_unpacking (df : value) (filepath : string)
    (opts : ref) : M value :=
  call_unpacking "compatible_write_csv" ["df"; "filepath"]
    (compatible_write_csv df filepath) opts.

(** The keyword arguments polars' writer is to receive for the caller's
    [kw], as one expression. *)
Definition polars_kwargs_of (kw : dict) : dict :=
  delete "index" (delete "sep" kw) ∪
  match kw !! "sep" with
  | Some sep => {["separator" := sep]}
  | None => ∅
  end.

End Functions.

End Compat.

(** ** A small instance of the library interface

    Tables are held column by column in both representations, conversions
    keep the columns, and the world maps a path to the table written there.
    The instance gives the examples below something to run on. *)
Module Toy.
Import Py Lib Sem.

Abbreviation table := (list (string * list value)).
Abbreviation files := (gmap string table).

Definition table_height (t : table) : nat :=
  match t with
  | [] => 0
  | (_, col) :: _ => length col
  end.

Definition table_cell (t : table) (c : string) (i : nat) : option value :=
  nc ← List.find (λ nc, String.eqb (fst nc) c) t;
  snd nc !! i.

#[global] Instance table_frame : Frame table := {|
  columns t := fst <$> t;
  height := table_height;
  cell := table_cell
|}.

Definition read (filepath : string) (kw : dict) (w : files) : (exn + table) * files :=
  match w !! filepath with
  | Some t => (inr t, w)
  | None => (inl (Exn "FileNotFoundError" filepath), w)
  end.

Definition write (t : table) (filepath : string) (kw : dict) (w : files)
    : (exn + unit) * files :=
  (inr (), <[filepath := t]> w).

#[global] Instance library : Library table table files := {|
  pd_frame := table_frame;
  pl_frame := table_frame;
  impl_from_pandas t := inr t;
  impl_to_pandas t := inr t;
  impl_pl_read_csv := read;
  impl_pd_read_csv := read;
  impl_write_csv := write;
  impl_to_csv := write
|}.

(** The table of the test-suite: columns [A], [B]. *)
Definition abc : table :=
  [("A", [VInt 1; VInt 2; VInt 3]); ("B", [VStr "x"; VStr "y"; VStr "z"])].

(** A state where object 0 is a pandas DataFrame, object 1 a polars
    DataFrame, object 2 a dictionary the caller holds, and object 3 an
    instance of some other class. *)
Definition σ0 : state table table files :=
  State (<[0 := PdDataFrame abc]>
           (<[1 := PlDataFrame abc]>
              (<[2 := Dict (<["sep" := VStr ";"]> (<["index" := VBool false]> ∅))]>
                 (<[3 := Instance "numpy.ndarray"]> ∅))))
        ∅ [].

(** The state [σ0] once the table has been written to [in.csv]. *)
Definition σ1 : state table table files :=
  State (heap σ0) (<["in.csv" := abc]> ∅) [].

End Toy.

(** ** Execution lemmas *)
Import Py Lib Sem Compat.

Section Execution.
Context {PdFrame PlFrame World : Type}.
Context {lib : Library PdFrame PlFrame World}.
Implicit Types (σ : state PdFrame PlFrame World) (r d k : ref).
Implicit Types (h : gmap ref (object PdFrame PlFrame)) (m kw : dict).

Local Abbreviation M := (Sem.M PdFrame PlFrame World).

Lemma run_bind {A B : Type} (c : M A) (f : A → M B) σ :
  (c ≫= f) σ =
  match c σ with
  | (Return a, σ') => f a σ'
  | (Raise e, σ') => (Raise e, σ')
  | (Stuck, σ') => (Stuck, σ')
  end.
Proof. reflexivity. Qed.

Lemma run_bind_Return {A B : Type} (c : M A) (f : A → M B) σ a σ' :
  c σ = (Return a, σ') → (c ≫= f) σ = f a σ'.
Proof. intros Hc. rewrite run_bind, Hc. reflexivity. Qed.

Lemma run_bind_assoc {A B C : Type} (c : M A) (f : A → M B) (g : B → M C) σ :
  ((c ≫= f) ≫= g) σ = (c ≫= λ a, f a ≫= g) σ.
Proof. rewrite !run_bind. destruct (c σ) as [[a|e|] σ']; reflexivity. Qed.

Lemma run_type σ v t :
  type_of (heap σ) v = Some t → type_ v σ = (Return t, σ).
Proof. intros Ht. unfold type_. rewrite run_bind. cbn. rewrite Ht. reflexivity. Qed.

Lemma run_type_None σ v :
  type_of (heap σ) v = None → type_ v σ = (Stuck, σ).
Proof. intros Ht. unfold type_. rewrite run_bind. cbn. rewrite Ht. reflexivity. Qed.

Lemma run_isinstance σ v t c :
  type_of (heap σ) v = Some t →
  isinstance v c σ = (Return (bool_decide (t = c)), σ).
Proof.
  intros Ht. unfold isinstance. rewrite (run_bind_Return _ _ _ _ _ (run_type _ _ _ Ht)).
  reflexivity.
Qed.

Lemma run_load σ r o : heap σ !! r = Some o → load r σ = (Return o, σ).
Proof. intros Hr. unfold load. rewrite run_bind. cbn. rewrite Hr. reflexivity. Qed.

Lemma run_alloc σ o :
  alloc o σ = (Return (fresh (dom (heap σ))),
               with_heap σ (<[fresh (dom (heap σ)) := o]> (heap σ))).
Proof. reflexivity. Qed.

Lemma run_load_dict σ d m :
  heap σ !! d = Some (Dict m) → load_dict d σ = (Return m, σ).
Proof.
  intros Hd. unfold load_dict. rewrite (run_bind_Return _ _ _ _ _ (run_load _ _ _ Hd)).
  reflexivity.
Qed.

Lemma run_dict_contains σ d m key :
  heap σ !! d = Some (Dict m) →
  dict_contains d key σ =
  (Return (match m !! key with Some _ => true | None => false end), σ).
Proof.
  intros Hd. unfold dict_contains.
  rewrite (run_bind_Return _ _ _ _ _ (run_load_dict _ _ _ Hd)). reflexivity.
Qed.

Lemma run_dict_getitem σ d m key v :
  heap σ !! d = Some (Dict m) → m !! key = Some v →
  dict_getitem d key σ = (Return v, σ).
Proof.
  intros Hd Hk. unfold dict_getitem.
  rewrite (run_bind_Return _ _ _ _ _ (run_load_dict _ _ _ Hd)), Hk. reflexivity.
Qed.

Lemma run_dict_setitem σ d m key v :
  heap σ !! d = Some (Dict m) →
  dict_setitem d key v σ =
  (Return (), with_heap σ (<[d := Dict (<[key := v]> m)]> (heap σ))).
Proof.
  intros Hd. unfold dict_setitem.
  rewrite (run_bind_Return _ _ _ _ _ (run_load_dict _ _ _ Hd)). reflexivity.
Qed.

Lemma run_dict_pop σ d m key v :
  heap σ !! d = Some (Dict m) → m !! key = Some v →
  dict_pop d key σ =
  (Return v, with_heap σ (<[d := Dict (delete key m)]> (heap σ))).
Proof.
  intros Hd Hk. unfold dict_pop.
  rewrite (run_bind_Return _ _ _ _ _ (run_load_dict _ _ _ Hd)), Hk. reflexivity.
Qed.

Lemma run_dict_update σ d other m m' :
  heap σ !! d = Some (Dict m) → heap σ !! other = Some (Dict m') →
  dict_update d other σ =
  (Return (), with_heap σ (<[d := Dict (m' ∪ m)]> (heap σ))).
Proof.
  intros Hd Ho. unfold dict_update.
  rewrite (run_bind_Return _ _ _ _ _ (run_load_dict _ _ _ Hd)).
  rewrite (run_bind_Return _ _ _ _ _ (run_load_dict _ _ _ Ho)). reflexivity.
Qed.

Lemma run_df_write_csv σ r g filepath d kw :
  heap σ !! r = Some (PlDataFrame g) → heap σ !! d = Some (Dict kw) →
  df_write_csv (VRef r) filepath d σ =
  let (x, w) := impl_write_csv g filepath kw (world σ) in
  (match x with inl e => Raise e | inr _ => Return VNone end,
   State (heap σ) w (calls σ ++ [Call_DataFrame_write_csv r filepath kw])).
Proof.
  intros Hr Hd. unfold df_write_csv.
  rewrite (run_bind_Return _ _ _ _ _ (run_load _ _ _ Hr)).
  rewrite (run_bind_Return _ _ _ _ _ (run_load_dict _ _ _ Hd)).
  rewrite run_bind. cbn [log]. rewrite run_bind. unfold on_world. cbn [heap world calls].
  destruct (impl_write_csv g filepath kw (world σ)) as [[e|[]] w]; reflexivity.
Qed.

Lemma run_df_to_csv σ r f filepath d kw :
  heap σ !! r = Some (PdDataFrame f) → heap σ !! d = Some (Dict kw) →
  df_to_csv (VRef r) filepath d σ =
  let (x, w) := impl_to_csv f filepath kw (world σ) in
  (match x with inl e => Raise e | inr _ => Return VNone end,
   State (heap σ) w (calls σ ++ [Call_DataFrame_to_csv r filepath kw])).
Proof.
  intros Hr Hd. unfold df_to_csv.
  rewrite (run_bind_Return _ _ _ _ _ (run_load _ _ _ Hr)).
  rewrite (run_bind_Return _ _ _ _ _ (run_load_dict _ _ _ Hd)).
  rewrite run_bind. cbn [log]. rewrite run_bind. unfold on_world. cbn [heap world calls].
  destruct (impl_to_csv f filepath kw (world σ)) as [[e|[]] w]; reflexivity.
Qed.

(** Allocation gives an address that no object has. *)
Lemma fresh_ne h r o : h !! r = Some o → r ≠ fresh (dom h).
Proof.
  intros Hr ->. apply (is_fresh (dom h)). apply elem_of_dom. eauto.
Qed.

Lemma lookup_alloc h r o o' :
  h !! r = Some o → <[fresh (dom h) := o']> h !! r = Some o.
Proof.
  intros Hr. rewrite lookup_insert_ne; [done|].
  intros Heq. exact (fresh_ne _ _ _ Hr (eq_sym Heq)).
Qed.

Lemma type_of_alloc h v t o' :
  type_of h v = Some t → type_of (<[fresh (dom h) := o']> h) v = Some t.
Proof.
  destruct v as [| | | |r]; cbn; try done.
  destruct (h !! r) as [o|] eqn:Hr; [|done].
  intros Ht. by rewrite (lookup_alloc _ _ _ _ Hr).
Qed.

(** What [isinstance] has established about [df]. *)
Lemma type_of_pd h v :
  type_of h v = Some cls_pd_DataFrame →
  ∃ r f, v = VRef r ∧ h !! r = Some (PdDataFrame f).
Proof.
  destruct v as [| | | |r]; cbn; try done.
  destruct (h !! r) as [[f|g|m|q]|] eqn:Hr; cbn; try done. eauto.
Qed.

Lemma type_of_pl h v :
  type_of h v = Some cls_pl_DataFrame →
  ∃ r g, v = VRef r ∧ h !! r = Some (PlDataFrame g).
Proof.
  destruct v as [| | | |r]; cbn; try done.
  destruct (h !! r) as [[f|g|m|q]|] eqn:Hr; cbn; try done. eauto.
Qed.

Lemma frame_of_type h v t :
  frame_of h v = Some t →
  type_of h v = Some (match t with inl _ => cls_pd_DataFrame | inr _ => cls_pl_DataFrame end).
Proof.
  destruct v as [| | | |r]; cbn; try done.
  destruct (h !! r) as [[f|g|m|q]|]; cbn; try done; by intros [= <-].
Qed.

(** Data equality is an equivalence across representations. *)
Lemma data_equal_refl {F : Type} `{Frame F} (f : F) : data_equal f f.
Proof. by repeat split. Qed.

Lemma data_equal_sym {F G : Type} `{Frame F, Frame G} (f : F) (g : G) :
  data_equal f g → data_equal g f.
Proof. intros (Hc & Hh & Hd). by repeat split. Qed.

Lemma data_equal_trans {F G K : Type} `{Frame F, Frame G, Frame K}
    (f : F) (g : G) (k : K) :
  data_equal f g → data_equal g k → data_equal f k.
Proof.
  intros (Hc & Hh & Hd) (Hc' & Hh' & Hd'). repeat split; [congruence..|].
  intros c i. by rewrite Hd.
Qed.
End Execution.

(** Tactics that run the functions of [compat.py] one statement at a time. *)
Ltac decide_class :=
  repeat first [ rewrite bool_decide_eq_true_2 by done
               | rewrite bool_decide_eq_false_2 by done ];
  cbv beta iota.

Ltac step H := rewrite (run_bind_Return _ _ _ _ _ H); decide_class.

Ltac heap_lookup :=
  cbn [heap world calls with_heap];
  repeat first [ rewrite lookup_insert_eq | rewrite lookup_insert_ne by done ];
  first [ reflexivity | eassumption ].

Ltac dict_lookup :=
  repeat first [ rewrite lookup_delete_ne by done ]; eassumption.

Ltac heap_eq :=
  apply map_eq; intros ?; rewrite !lookup_insert;
  repeat case_decide; congruence.

Ltac dict_steps :=
  repeat first
    [ rewrite run_bind_assoc
    | erewrite run_bind_Return by
        first [ eapply run_dict_contains; heap_lookup
              | eapply run_dict_getitem; [heap_lookup | dict_lookup]
              | eapply run_dict_setitem; heap_lookup
              | eapply run_dict_pop; [heap_lookup | dict_lookup]
              | eapply run_dict_update; heap_lookup
              | reflexivity ]
    | progress (unfold with_heap; cbn [heap world calls]; cbv beta iota)
    | match goal with H : _ !! _ = _ |- _ => rewrite H end
    | rewrite lookup_delete_ne by done ].

(** ** The six functions, run *)
Section Runs.
Context {PdFrame PlFrame World : Type}.
Context {lib : Library PdFrame PlFrame World}.
Implicit Types (σ : state PdFrame PlFrame World) (r d k : ref).
Implicit Types (h : gmap ref (object PdFrame PlFrame)) (m kw : dict).
Implicit Types (f : PdFrame) (g : PlFrame) (v df : value) (t : pyclass).

Lemma run_to_pandas_pd σ r f :
  heap σ !! r = Some (PdDataFrame f) →
  to_pandas (VRef r) σ = (Return (VRef r), σ).
Proof.
  intros Hr.
  assert (Ht : type_of (heap σ) (VRef r) = Some cls_pd_DataFrame)
    by (cbn; by rewrite Hr).
  unfold to_pandas.
  step (run_isinstance _ _ _ cls_pl_DataFrame Ht).
  step (run_isinstance _ _ _ cls_pd_DataFrame Ht).
  reflexivity.
Qed.

Lemma run_to_polars_pl σ r g :
  heap σ !! r = Some (PlDataFrame g) →
  to_polars (VRef r) σ = (Return (VRef r), σ).
Proof.
  intros Hr.
  assert (Ht : type_of (heap σ) (VRef r) = Some cls_pl_DataFrame)
    by (cbn; by rewrite Hr).
  unfold to_polars.
  step (run_isinstance _ _ _ cls_pd_DataFrame Ht).
  step (run_isinstance _ _ _ cls_pl_DataFrame Ht).
  reflexivity.
Qed.

Lemma run_to_pandas_pl σ r g :
  heap σ !! r = Some (PlDataFrame g) →
  to_pandas (VRef r) σ =
  let cs := calls σ ++ [Call_DataFrame_to_pandas r] in
  match impl_to_pandas g with
  | inl e => (Raise e, State (heap σ) (world σ) cs)
  | inr f =>
      let r' := fresh (dom (heap σ)) in
      (Return (VRef r'), State (<[r' := PdDataFrame f]> (heap σ)) (world σ) cs)
  end.
Proof.
  intros Hr.
  assert (Ht : type_of (heap σ) (VRef r) = Some cls_pl_DataFrame)
    by (cbn; by rewrite Hr).
  unfold to_pandas.
  step (run_isinstance _ _ _ cls_pl_DataFrame Ht).
  unfold df_to_pandas. step (run_load _ _ _ Hr).
  rewrite run_bind. cbn [log]. rewrite run_bind.
  destruct (impl_to_pandas g) as [e|f]; reflexivity.
Qed.

Lemma run_to_polars_pd σ r f :
  heap σ !! r = Some (PdDataFrame f) →
  to_polars (VRef r) σ =
  let cs := calls σ ++ [Call_pl_from_pandas r] in
  match impl_from_pandas f with
  | inl e => (Raise e, State (heap σ) (world σ) cs)
  | inr g =>
      let r' := fresh (dom (heap σ)) in
      (Return (VRef r'), State (<[r' := PlDataFrame g]> (heap σ)) (world σ) cs)
  end.
Proof.
  intros Hr.
  assert (Ht : type_of (heap σ) (VRef r) = Some cls_pd_DataFrame)
    by (cbn; by rewrite Hr).
  unfold to_polars.
  step (run_isinstance _ _ _ cls_pd_DataFrame Ht).
  unfold pl_from_pandas. step (run_load _ _ _ Hr).
  rewrite run_bind. cbn [log]. rewrite run_bind.
  destruct (impl_from_pandas f) as [e|g]; reflexivity.
Qed.

Lemma run_to_polars_unsupported σ v t :
  type_of (heap σ) v = Some t → t ≠ cls_pd_DataFrame → t ≠ cls_pl_DataFrame →
  to_polars v σ = (Raise (TypeError (expected_got t)), σ).
Proof.
  intros Ht Hpd Hpl. unfold to_polars.
  step (run_isinstance _ _ _ cls_pd_DataFrame Ht).
  step (run_isinstance _ _ _ cls_pl_DataFrame Ht).
  step (run_type _ _ _ Ht). reflexivity.
Qed.

Lemma run_to_pandas_unsupported σ v t :
  type_of (heap σ) v = Some t → t ≠ cls_pd_DataFrame → t ≠ cls_pl_DataFrame →
  to_pandas v σ = (Raise (TypeError (expected_got t)), σ).
Proof.
  intros Ht Hpd Hpl. unfold to_pandas.
  step (run_isinstance _ _ _ cls_pl_DataFrame Ht).
  step (run_isinstance _ _ _ cls_pd_DataFrame Ht).
  step (run_type _ _ _ Ht). reflexivity.
Qed.

Lemma run_compatible_read_csv σ filepath use_polars kw :
  compatible_read_csv filepath use_polars kw σ =
  let k := fresh (dom (heap σ)) in
  let h := <[k := Dict kw]> (heap σ) in
  let r := fresh (dom h) in
  if truthy use_polars then
    let cs := calls σ ++ [Call_pl_read_csv filepath kw] in
    match impl_pl_read_csv filepath kw (world σ) with
    | (inl e, w) => (Raise e, State h w cs)
    | (inr g, w) => (Return (VRef r), State (<[r := PlDataFrame g]> h) w cs)
    end
  else
    let cs := calls σ ++ [Call_pd_read_csv filepath kw] in
    match impl_pd_read_csv filepath kw (world σ) with
    | (inl e, w) => (Raise e, State h w cs)
    | (inr f, w) => (Return (VRef r), State (<[r := PdDataFrame f]> h) w cs)
    end.
Proof.
  unfold compatible_read_csv, collect_kwargs.
  step (run_alloc σ (Dict kw)).
  destruct (truthy use_polars); [unfold pl_read_csv | unfold pd_read_csv].
  all: erewrite run_bind_Return by (eapply run_load_dict; heap_lookup).
  all: rewrite run_bind; cbn [log]; rewrite run_bind; unfold on_world.
  all: cbn [heap world calls with_heap].
  - destruct (impl_pl_read_csv filepath kw (world σ)) as [[e|g] w]; reflexivity.
  - destruct (impl_pd_read_csv filepath kw (world σ)) as [[e|f] w]; reflexivity.
Qed.

Lemma run_compatible_write_csv_pl σ r g filepath kw :
  heap σ !! r = Some (PlDataFrame g) →
  let k := fresh (dom (heap σ)) in
  let p := fresh (dom (<[k := Dict kw]> (heap σ))) in
  compatible_write_csv (VRef r) filepath kw σ =
  let (x, w) := impl_write_csv g filepath (polars_kwargs_of kw) (world σ) in
  (match x with inl e => Raise e | inr _ => Return VNone end,
   State (<[p := Dict (polars_kwargs_of kw)]>
            (<[k := Dict (delete "index" (delete "sep" kw))]> (heap σ)))
         w
         (calls σ ++ [Call_DataFrame_write_csv r filepath (polars_kwargs_of kw)])).
Proof.
  intros Hr k p. unfold compatible_write_csv, collect_kwargs, dict_new.
  step (run_alloc σ (Dict kw)). fold k.
  set (σ1 := with_heap σ _).
  assert (Hr1 : heap σ1 !! r = Some (PlDataFrame g)) by (by apply lookup_alloc).
  assert (Ht : type_of (heap σ1) (VRef r) = Some cls_pl_DataFrame)
    by (cbn in *; by rewrite Hr1).
  step (run_isinstance _ _ _ cls_pl_DataFrame Ht).
  step (run_alloc σ1 (Dict ∅)). fold p.
  assert (Hkp : k ≠ p).
  { apply (fresh_ne (<[k := Dict kw]> (heap σ)) k (Dict kw)). apply lookup_insert_eq. }
  assert (Hrk : r ≠ k) by exact (fresh_ne _ _ _ Hr).
  assert (Hrp : r ≠ p) by exact (fresh_ne _ _ _ Hr1).
  unfold σ1, with_heap; cbn [heap world calls]. fold p. clear σ1 Hr1 Ht.
  unfold polars_kwargs_of.
  destruct (kw !! "sep") as [sep|] eqn:Hsep;
    destruct (kw !! "index") as [idx|] eqn:Hidx.
  all: dict_steps.
  all: rewrite run_bind; erewrite run_df_write_csv by heap_lookup.
  all: cbn [heap world calls]; rewrite ?insert_empty.
  all: try rewrite (delete_id kw "sep") by done.
  all: try rewrite (delete_id _ "index") by (by rewrite ?lookup_delete_ne).
  all: match goal with
       | |- context [impl_write_csv ?a ?b ?c ?d] =>
           destruct (impl_write_csv a b c d) as [[e|[]] w]
       end.
  all: cbn; do 2 f_equal; heap_eq.
Qed.

Lemma run_compatible_write_csv_pd σ r f filepath kw :
  heap σ !! r = Some (PdDataFrame f) →
  compatible_write_csv (VRef r) filepath kw σ =
  let (x, w) := impl_to_csv f filepath kw (world σ) in
  (match x with inl e => Raise e | inr _ => Return VNone end,
   State (<[fresh (dom (heap σ)) := Dict kw]> (heap σ))
         w
         (calls σ ++ [Call_DataFrame_to_csv r filepath kw])).
Proof.
  intros Hr. unfold compatible_write_csv, collect_kwargs.
  step (run_alloc σ (Dict kw)).
  set (σ1 := with_heap σ _).
  assert (Hr1 : heap σ1 !! r = Some (PdDataFrame f)) by (by apply lookup_alloc).
  assert (Ht : type_of (heap σ1) (VRef r) = Some cls_pd_DataFrame)
    by (cbn in *; by rewrite Hr1).
  step (run_isinstance _ _ _ cls_pl_DataFrame Ht).
  step (run_isinstance _ _ _ cls_pd_DataFrame Ht).
  rewrite run_bind.
  rewrite (run_df_to_csv σ1 r f filepath _ kw Hr1) by (unfold σ1; heap_lookup).
  unfold σ1; cbn [heap world calls with_heap].
  destruct (impl_to_csv f filepath kw (world σ)) as [[e|[]] w]; reflexivity.
Qed.

Lemma run_compatible_write_csv_unsupported σ v t filepath kw :
  type_of (heap σ) v = Some t → t ≠ cls_pd_DataFrame → t ≠ cls_pl_DataFrame →
  compatible_write_csv v filepath kw σ =
  (Raise (TypeError (expected_got t)),
   with_heap σ (<[fresh (dom (heap σ)) := Dict kw]> (heap σ))).
Proof.
  intros Ht Hpd Hpl. unfold compatible_write_csv, collect_kwargs.
  step (run_alloc σ (Dict kw)).
  set (σ1 := with_heap σ _).
  assert (Ht1 : type_of (heap σ1) v = Some t) by (by apply type_of_alloc).
  step (run_isinstance _ _ _ cls_pl_DataFrame Ht1).
  step (run_isinstance _ _ _ cls_pd_DataFrame Ht1).
  step (run_type _ _ _ Ht1). reflexivity.
Qed.

Lemma run_compatible_write_csv_dangling σ v filepath kw :
  type_of (heap σ) v = None →
  (compatible_write_csv v filepath kw σ).2 =
  with_heap σ (<[fresh (dom (heap σ)) := Dict kw]> (heap σ)).
Proof.
  intros Ht. unfold compatible_write_csv, collect_kwargs.
  step (run_alloc σ (Dict kw)).
  set (σ1 := with_heap σ _).
  destruct (type_of (heap σ1) v) as [t|] eqn:Ht1.
  - assert (t = cls_dict) as ->.
    { destruct v as [| | | |r]; try done. cbn in Ht, Ht1.
      destruct (heap σ !! r) as [o|] eqn:Hr; [done|].
      destruct (decide (fresh (dom (heap σ)) = r)) as [<-|Hne].
      - rewrite lookup_insert_eq in Ht1. by injection Ht1 as <-.
      - rewrite lookup_insert_ne, Hr in Ht1; done. }
    step (run_isinstance _ _ _ cls_pl_DataFrame Ht1).
    step (run_isinstance _ _ _ cls_pd_DataFrame Ht1).
    step (run_type _ _ _ Ht1). reflexivity.
  - unfold isinstance. rewrite !run_bind_assoc, run_bind.
    rewrite (run_type_None _ _ Ht1). reflexivity.
Qed.

(** Whatever [df] is, the objects that exist before the call are the same
    after it: the call only adds the dictionaries it makes itself. *)
Lemma compatible_write_csv_frame σ df filepath kw r o :
  heap σ !! r = Some o →
  heap (compatible_write_csv df filepath kw σ).2 !! r = Some o.
Proof.
  intros Hr.
  assert (Hk : r ≠ fresh (dom (heap σ))) by exact (fresh_ne _ _ _ Hr).
  assert (Hp : r ≠ fresh (dom (<[fresh (dom (heap σ)) := Dict kw]> (heap σ)))).
  { apply (fresh_ne _ _ o). by rewrite lookup_insert_ne. }
  destruct (type_of (heap σ) df) as [t|] eqn:Ht.
  - destruct (decide (t = cls_pl_DataFrame)) as [->|Hpl].
    { destruct (type_of_pl _ _ Ht) as (r' & g & -> & Hr').
      rewrite (run_compatible_write_csv_pl _ _ _ filepath kw Hr'). cbv zeta.
      destruct (impl_write_csv _ _ _ _) as [x w]. cbn.
      by rewrite !lookup_insert_ne. }
    destruct (decide (t = cls_pd_DataFrame)) as [->|Hpd].
    { destruct (type_of_pd _ _ Ht) as (r' & f & -> & Hr').
      rewrite (run_compatible_write_csv_pd _ _ _ filepath kw Hr').
      destruct (impl_to_csv _ _ _ _) as [x w]. cbn.
      by rewrite lookup_insert_ne. }
    rewrite (run_compatible_write_csv_unsupported _ _ _ filepath kw Ht Hpd Hpl). cbn.
    by rewrite lookup_insert_ne.
  - rewrite (run_compatible_write_csv_dangling _ _ filepath kw Ht). cbn.
    by rewrite lookup_insert_ne.
Qed.
End Runs.

(** ** Properties of the bridge *)
Section Properties.
Context {PdFrame PlFrame World : Type}.
Context {lib : Library PdFrame PlFrame World}.
Implicit Types (σ : state PdFrame PlFrame World) (r d k opts : ref).
Implicit Types (h : gmap ref (object PdFrame PlFrame)) (m kw : dict).
Implicit Types (f : PdFrame) (g : PlFrame) (v df : value) (c : pyclass).

(** C1 (as amended). Writing a polars DataFrame calls polars' writer once,
    with keyword arguments in which: the value of [sep] stands under
    [separator] when the caller gave [sep] and no [separator] of their own;
    there is no [sep] and no [index]; every other key the caller gave,
    [separator] included, keeps its value; and nothing else is bound. *)
Theorem write_csv_polars_translation σ r g filepath kw :
  heap σ !! r = Some (PlDataFrame g) →
  let res := compatible_write_csv (VRef r) filepath kw σ in
  let kw' := polars_kwargs_of kw in
  calls res.2 = calls σ ++ [Call_DataFrame_write_csv r filepath kw'] ∧
  (∀ sep, kw !! "sep" = Some sep → kw !! "separator" = None →
          kw' !! "separator" = Some sep) ∧
  kw' !! "sep" = None ∧
  kw' !! "index" = None ∧
  (∀ key x, key ≠ "sep" → key ≠ "index" → kw !! key = Some x → kw' !! key = Some x) ∧
  (∀ key x, kw' !! key = Some x →
            kw !! key = Some x ∨ (key = "separator" ∧ kw !! "sep" = Some x)).
Proof.
  intros Hr res kw'. subst res.
  rewrite (run_compatible_write_csv_pl _ _ _ filepath kw Hr). cbv zeta.
  destruct (impl_write_csv _ _ _ _) as [out w]. cbn [snd calls].
  split; [done|]. subst kw'. unfold polars_kwargs_of.
  split; [|split; [|split; [|split]]].
  - intros sep Hsep Hnone. rewrite Hsep.
    rewrite lookup_union_r by (by rewrite !lookup_delete_ne).
    apply lookup_singleton_eq.
  - apply lookup_union_None. split; [by rewrite lookup_delete_ne, lookup_delete_eq|].
    destruct (kw !! "sep"); [by rewrite lookup_singleton_ne | apply lookup_empty].
  - apply lookup_union_None. split; [apply lookup_delete_eq|].
    destruct (kw !! "sep"); [by rewrite lookup_singleton_ne | apply lookup_empty].
  - intros key x Hsep Hindex Hkey. apply lookup_union_Some_l.
    by rewrite !lookup_delete_ne.
  - intros key x [Hl|[_ Hr']]%lookup_union_Some_raw.
    + left. rewrite !lookup_delete_Some in Hl. tauto.
    + right. destruct (kw !! "sep") as [sep|]; [|by rewrite lookup_empty in Hr'].
      apply lookup_singleton_Some in Hr' as [<- <-]. done.
Qed.

(** C2. A table that is already in the requested representation comes back
    as the very same object: [to_pandas] of a pandas DataFrame and
    [to_polars] of a polars DataFrame return the reference they were given
    and leave the state as it was (nothing allocated, no library called). *)
Theorem passthrough_identity σ v t :
  frame_of (heap σ) v = Some t →
  match t with
  | inl _ => to_pandas v σ = (Return v, σ)
  | inr _ => to_polars v σ = (Return v, σ)
  end.
Proof.
  destruct v as [| | | |r]; cbn; try done.
  destruct (heap σ !! r) as [[f|g|m|q]|] eqn:Hr; try done; intros [= <-].
  - exact (run_to_pandas_pd _ _ _ Hr).
  - exact (run_to_polars_pl _ _ _ Hr).
Qed.

(** C3. A value that is neither a pandas nor a polars DataFrame makes
    [to_polars], [to_pandas] and [compatible_write_csv] raise a TypeError
    whose message ends with the type observed; no value is returned and no
    library is called. *)
Theorem unsupported_type_raises σ v c filepath kw :
  type_of (heap σ) v = Some c →
  c ≠ cls_pd_DataFrame → c ≠ cls_pl_DataFrame →
  let e := TypeError ("Expected pd.DataFrame or pl.DataFrame, got " +:+ class_str c) in
  let res := compatible_write_csv v filepath kw σ in
  to_polars v σ = (Raise e, σ) ∧
  to_pandas v σ = (Raise e, σ) ∧
  res.1 = Raise e ∧ calls res.2 = calls σ ∧ world res.2 = world σ.
Proof.
  intros Hc Hpd Hpl e res. subst res.
  rewrite (run_compatible_write_csv_unsupported _ _ _ filepath kw Hc Hpd Hpl).
  rewrite (run_to_polars_unsupported _ _ _ Hc Hpd Hpl).
  rewrite (run_to_pandas_unsupported _ _ _ Hc Hpd Hpl).
  done.
Qed.

(** C4. [ensure_polars] is [to_polars] and [ensure_pandas] is [to_pandas]:
    from every state and on every value they give the same outcome (the
    same reference, or the same exception with the same message) and the
    same state. *)
Theorem ensure_is_alias σ v :
  ensure_polars v σ = to_polars v σ ∧ ensure_pandas v σ = to_pandas v σ.
Proof. split; reflexivity. Qed.

(** C5. [compatible_read_csv] looks at [use_polars] only: when it is true
    polars' reader is called, when it is false pandas' reader, each once,
    with the path and exactly the keyword arguments of the caller; the
    table read is returned as a new object of that representation, and an
    exception of the reader is raised as it is. *)
Theorem read_csv_dispatch σ filepath use_polars kw :
  let res := compatible_read_csv filepath use_polars kw σ in
  if truthy use_polars then
    calls res.2 = calls σ ++ [Call_pl_read_csv filepath kw] ∧
    match impl_pl_read_csv filepath kw (world σ) with
    | (inl e, w) => res.1 = Raise e ∧ world res.2 = w
    | (inr g, w) =>
        ∃ r, res.1 = Return (VRef r) ∧ heap res.2 !! r = Some (PlDataFrame g) ∧
             world res.2 = w
    end
  else
    calls res.2 = calls σ ++ [Call_pd_read_csv filepath kw] ∧
    match impl_pd_read_csv filepath kw (world σ) with
    | (inl e, w) => res.1 = Raise e ∧ world res.2 = w
    | (inr f, w) =>
        ∃ r, res.1 = Return (VRef r) ∧ heap res.2 !! r = Some (PdDataFrame f) ∧
             world res.2 = w
    end.
Proof.
  intros res. subst res. rewrite run_compatible_read_csv. cbv zeta.
  destruct (truthy use_polars).
  - destruct (impl_pl_read_csv _ _ _) as [[e|g] w]; cbn; [done|].
    split; [done|]. eexists. split; [done|]. by rewrite lookup_insert_eq.
  - destruct (impl_pd_read_csv _ _ _) as [[e|f] w]; cbn; [done|].
    split; [done|]. eexists. split; [done|]. by rewrite lookup_insert_eq.
Qed.

(** C6. Writing a pandas DataFrame calls pandas' writer once, with the
    path and exactly the keyword arguments of the caller; what the writer
    does to the world and whether it raises is the outcome of the call. *)
Theorem write_csv_pandas_verbatim σ r f filepath kw :
  heap σ !! r = Some (PdDataFrame f) →
  let res := compatible_write_csv (VRef r) filepath kw σ in
  let out := impl_to_csv f filepath kw (world σ) in
  calls res.2 = calls σ ++ [Call_DataFrame_to_csv r filepath kw] ∧
  res.1 = match out.1 with inl e => Raise e | inr _ => Return VNone end ∧
  world res.2 = out.2.
Proof.
  intros Hr res out. subst res out.
  rewrite (run_compatible_write_csv_pd _ _ _ filepath kw Hr).
  destruct (impl_to_csv _ _ _ _) as [x w]. done.
Qed.

(** C7. Round trip.  For a table [v] of either representation,
    [to_polars(to_pandas(v))] returns a polars DataFrame and
    [to_pandas(to_polars(v))] a pandas DataFrame, each holding the same
    data as [v], given that the two conversions of polars are faithful. *)
Theorem round_trip_data_equal (Hlib : Faithful lib) σ v t :
  frame_of (heap σ) v = Some t →
  (∃ v' σ' g, (to_pandas v ≫= to_polars) σ = (Return v', σ') ∧
              frame_of (heap σ') v' = Some (inr g) ∧ data_equal g t) ∧
  (∃ v' σ' f, (to_polars v ≫= to_pandas) σ = (Return v', σ') ∧
              frame_of (heap σ') v' = Some (inl f) ∧ data_equal f t).
Proof.
  destruct v as [| | | |r]; cbn [frame_of]; try done.
  destruct (heap σ !! r) as [[f|g|m|q]|] eqn:Hr; try done; intros [= <-].
  - (* [v] is a pandas DataFrame *)
    destruct (from_pandas_faithful f) as (g & Hg & Hfg).
    split.
    + rewrite (run_bind_Return _ _ _ _ _ (run_to_pandas_pd _ _ _ Hr)).
      rewrite (run_to_polars_pd _ _ _ Hr), Hg. cbv zeta.
      eexists _, _, g. split; [done|]. cbn. rewrite lookup_insert_eq.
      split; [done|]. by apply data_equal_sym.
    + pose proof (run_to_polars_pd _ _ _ Hr) as Hrun. rewrite Hg in Hrun.
      cbv zeta in Hrun. rewrite (run_bind_Return _ _ _ _ _ Hrun).
      destruct (to_pandas_faithful g) as (f' & Hf' & Hgf').
      erewrite run_to_pandas_pl by (cbn; apply lookup_insert_eq).
      rewrite Hf'. cbv zeta.
      eexists _, _, f'. split; [done|]. cbn. rewrite lookup_insert_eq.
      split; [done|].
      apply data_equal_sym, (data_equal_trans f g f'); done.
  - (* [v] is a polars DataFrame *)
    destruct (to_pandas_faithful g) as (f & Hf & Hgf).
    split.
    + pose proof (run_to_pandas_pl _ _ _ Hr) as Hrun. rewrite Hf in Hrun.
      cbv zeta in Hrun. rewrite (run_bind_Return _ _ _ _ _ Hrun).
      destruct (from_pandas_faithful f) as (g' & Hg' & Hfg').
      erewrite run_to_polars_pd by (cbn; apply lookup_insert_eq).
      rewrite Hg'. cbv zeta.
      eexists _, _, g'. split; [done|]. cbn. rewrite lookup_insert_eq.
      split; [done|].
      apply data_equal_sym, (data_equal_trans g f g'); done.
    + rewrite (run_bind_Return _ _ _ _ _ (run_to_polars_pl _ _ _ Hr)).
      rewrite (run_to_pandas_pl _ _ _ Hr), Hf. cbv zeta.
      eexists _, _, f. split; [done|]. cbn. rewrite lookup_insert_eq.
      split; [done|]. by apply data_equal_sym.
Qed.

(** C8. [to_pandas] of a polars DataFrame returns a pandas DataFrame with
    the same column names in the same order, the same number of rows and
    the same cell in every column at every row, given that polars'
    conversion is faithful. *)
Theorem to_pandas_preserves_table (Hlib : Faithful lib) σ r g :
  heap σ !! r = Some (PlDataFrame g) →
  ∃ r' f σ',
    to_pandas (VRef r) σ = (Return (VRef r'), σ') ∧
    heap σ' !! r' = Some (PdDataFrame f) ∧
    columns f = columns g ∧
    height f = height g ∧
    ∀ (col : string) (i : nat), cell f col i = cell g col i.
Proof.
  intros Hr. destruct (to_pandas_faithful g) as (f & Hf & Hc & Hh & Hd).
  rewrite (run_to_pandas_pl _ _ _ Hr), Hf. cbv zeta.
  eexists _, f, _. split; [done|]. cbn. rewrite lookup_insert_eq. done.
Qed.

(** C9. When the caller gives both [sep] and [separator] for a polars
    DataFrame, polars' writer receives the caller's [separator]: the
    dictionary that holds [separator] set from [sep] is then updated with
    the caller's remaining arguments, and the later write wins. *)
Theorem separator_last_write_wins σ r g filepath kw s x :
  heap σ !! r = Some (PlDataFrame g) →
  kw !! "sep" = Some s →
  kw !! "separator" = Some x →
  let res := compatible_write_csv (VRef r) filepath kw σ in
  let kw' := delete "index" (delete "sep" kw) ∪ {["separator" := s]} in
  calls res.2 = calls σ ++ [Call_DataFrame_write_csv r filepath kw'] ∧
  kw' !! "separator" = Some x.
Proof.
  intros Hr Hs Hx res kw'. subst res kw'.
  rewrite (run_compatible_write_csv_pl _ _ _ filepath kw Hr). cbv zeta.
  destruct (impl_write_csv _ _ _ _) as [y w]. cbn [snd calls].
  unfold polars_kwargs_of. rewrite Hs. split; [done|].
  apply lookup_union_Some_l. by rewrite !lookup_delete_ne.
Qed.

(** C10. A mapping [opts] that the caller unpacks into the call, as in
    [compatible_write_csv(df, filepath, **opts)], is the same after the
    call, whatever [df] is; and so is every other object that existed
    before it. *)
Theorem caller_options_unchanged σ df filepath opts m :
  heap σ !! opts = Some (Dict m) →
  let σ' := (compatible_write_csv_unpacking df filepath opts σ).2 in
  heap σ' !! opts = Some (Dict m) ∧
  ∀ r o, heap σ !! r = Some o → heap σ' !! r = Some o.
Proof.
  intros Hopts σ'. subst σ'.
  cut (∀ r o, heap σ !! r = Some o →
         heap (compatible_write_csv_unpacking df filepath opts σ).2 !! r = Some o).
  { intros Hall. split; [by apply Hall | done]. }
  intros r o Hr. unfold compatible_write_csv_unpacking, call_unpacking.
  rewrite (run_bind_Return _ _ _ _ _ (run_load_dict _ _ _ Hopts)).
  destruct (List.find _ _) as [p|]; [done|].
  by apply compatible_write_csv_frame.
Qed.
End Properties.

(** ** The properties at work on the small instance *)

Lemma toy_faithful : Faithful Toy.library.
Proof.
  split; intros t; exists t; (split; [reflexivity | apply data_equal_refl]).
Qed.

(** The two scenarios on options of the write path. *)
Example write_polars_sep_index :
  calls (compatible_write_csv (VRef 1) "out.csv"
           (<["sep" := VStr ";"]> (<["index" := VBool false]> ∅)) Toy.σ0).2
  = [Call_DataFrame_write_csv 1 "out.csv" (<["separator" := VStr ";"]> ∅)].
Proof. vm_compute. reflexivity. Qed.

Example write_pandas_index :
  calls (compatible_write_csv (VRef 0) "out.csv"
           (<["index" := VBool false]> ∅) Toy.σ0).2
  = [Call_DataFrame_to_csv 0 "out.csv" (<["index" := VBool false]> ∅)].
Proof. vm_compute. reflexivity. Qed.

(** The two calls of the test-suite that must fail. *)
Example to_polars_str :
  to_polars (VStr "invalid") Toy.σ0 =
  (Raise (TypeError "Expected pd.DataFrame or pl.DataFrame, got <class 'str'>"), Toy.σ0).
Proof. reflexivity. Qed.

Example to_pandas_int :
  to_pandas (VInt 123) Toy.σ0 =
  (Raise (TypeError "Expected pd.DataFrame or pl.DataFrame, got <class 'int'>"), Toy.σ0).
Proof. reflexivity. Qed.

(** C1, as stated, fails when the caller gives [sep] and [separator]
    together: [sep] is [";"], yet polars' writer receives [separator] bound
    to [","], the caller's own value. *)
Lemma sep_with_separator_counterexample :
  let kw : gmap string value :=
    <["sep" := VStr ";"]> (<["separator" := VStr ","]> ∅) in
  let kw' : gmap string value := <["separator" := VStr ","]> ∅ in
  kw !! "sep" = Some (VStr ";") ∧
  calls (compatible_write_csv (VRef 1) "out.csv" kw Toy.σ0).2
  = [Call_DataFrame_write_csv 1 "out.csv" kw'] ∧
  kw' !! "separator" ≠ Some (VStr ";").
Proof.
  cbv zeta. split; [vm_compute; reflexivity|].
  split; [vm_compute; reflexivity|].
  vm_compute. discriminate.
Qed.

Lemma write_csv_polars_translation_witness :
  let kw : gmap string value :=
    <["sep" := VStr ";"]> (<["index" := VBool false]> ∅) in
  heap Toy.σ0 !! 1 = Some (PlDataFrame Toy.abc) ∧
  calls (compatible_write_csv (VRef 1) "out.csv" kw Toy.σ0).2
  = calls Toy.σ0 ++ [Call_DataFrame_write_csv 1 "out.csv" (polars_kwargs_of kw)] ∧
  polars_kwargs_of kw !! "sep" = None.
Proof.
  cbv zeta.
  assert (H : heap Toy.σ0 !! 1 = Some (PlDataFrame Toy.abc)) by (vm_compute; reflexivity).
  split; [exact H|].
  pose proof (write_csv_polars_translation Toy.σ0 1 Toy.abc "out.csv"
                (<["sep" := VStr ";"]> (<["index" := VBool false]> ∅)) H) as W.
  cbv zeta in W. destruct W as (Hcalls & _ & Hsep & _). split; [exact Hcalls | exact Hsep].
Defined.

Lemma passthrough_identity_witness :
  to_pandas (VRef 0) Toy.σ0 = (Return (VRef 0), Toy.σ0) ∧
  to_polars (VRef 1) Toy.σ0 = (Return (VRef 1), Toy.σ0).
Proof.
  split.
  - apply (passthrough_identity Toy.σ0 (VRef 0) (inl Toy.abc)). vm_compute; reflexivity.
  - apply (passthrough_identity Toy.σ0 (VRef 1) (inr Toy.abc)). vm_compute; reflexivity.
Defined.

Lemma unsupported_type_raises_witness :
  to_polars (VRef 3) Toy.σ0 =
  (Raise (TypeError "Expected pd.DataFrame or pl.DataFrame, got <class 'numpy.ndarray'>"),
   Toy.σ0).
Proof.
  apply (unsupported_type_raises Toy.σ0 (VRef 3) (cls_other "numpy.ndarray") "out.csv" ∅).
  - vm_compute; reflexivity.
  - discriminate.
  - discriminate.
Defined.

Lemma write_csv_pandas_verbatim_witness :
  calls (compatible_write_csv (VRef 0) "out.csv" (<["index" := VBool false]> ∅) Toy.σ0).2
  = calls Toy.σ0 ++ [Call_DataFrame_to_csv 0 "out.csv" (<["index" := VBool false]> ∅)].
Proof.
  apply (write_csv_pandas_verbatim Toy.σ0 0 Toy.abc "out.csv"
           (<["index" := VBool false]> ∅)).
  vm_compute; reflexivity.
Defined.

Lemma round_trip_data_equal_witness :
  ∃ v' σ' g, (to_pandas (VRef 1) ≫= to_polars) Toy.σ0 = (Return v', σ') ∧
             frame_of (heap σ') v' = Some (inr g) ∧
             data_equal g (inr Toy.abc : Toy.table + Toy.table).
Proof.
  apply (round_trip_data_equal toy_faithful Toy.σ0 (VRef 1) (inr Toy.abc)).
  vm_compute; reflexivity.
Defined.

Lemma to_pandas_preserves_table_witness :
  ∃ r' f σ',
    to_pandas (VRef 1) Toy.σ0 = (Return (VRef r'), σ') ∧
    heap σ' !! r' = Some (PdDataFrame f) ∧
    columns f = columns Toy.abc ∧
    height f = height Toy.abc ∧
    ∀ (col : string) (i : nat), cell f col i = cell Toy.abc col i.
Proof.
  apply (to_pandas_preserves_table toy_faithful Toy.σ0 1 Toy.abc).
  vm_compute; reflexivity.
Defined.

Lemma separator_last_write_wins_witness :
  let kw : gmap string value :=
    <["sep" := VStr ";"]> (<["separator" := VStr ","]> ∅) in
  (delete "index" (delete "sep" kw) ∪ {["separator" := VStr ";"]}) !! "separator"
  = Some (VStr ",").
Proof.
  cbv zeta.
  apply (separator_last_write_wins Toy.σ0 1 Toy.abc "out.csv"
           (<["sep" := VStr ";"]> (<["separator" := VStr ","]> ∅))
           (VStr ";") (VStr ",")); vm_compute; reflexivity.
Defined.

Lemma caller_options_unchanged_witness :
  heap (compatible_write_csv_unpacking (VRef 1) "out.csv" 2 Toy.σ0).2 !! 2
  = Some (Dict (<["sep" := VStr ";"]> (<["index" := VBool false]> ∅))).
Proof.
  assert (H : heap Toy.σ0 !! 2
              = Some (Dict (<["sep" := VStr ";"]> (<["index" := VBool false]> ∅))))
    by (vm_compute; reflexivity).
  exact (proj1 (caller_options_unchanged Toy.σ0 (VRef 1) "out.csv" 2 _ H)).
Defined.

(** ** Further properties: how the functions compose, what they leave alone *)
Section Outcomes.
Context {PdFrame PlFrame World : Type}.
Context {lib : Library PdFrame PlFrame World}.
Implicit Types (σ : state PdFrame PlFrame World) (r d k : ref).
Implicit Types (h : gmap ref (object PdFrame PlFrame)) (m kw : dict).
Implicit Types (f : PdFrame) (g : PlFrame) (v df : value) (c : pyclass).

Lemma run_to_polars_dangling σ v :
  type_of (heap σ) v = None → to_polars v σ = (Stuck, σ).
Proof.
  intros Ht. unfold to_polars, isinstance.
  rewrite !run_bind_assoc, run_bind, (run_type_None _ _ Ht). reflexivity.
Qed.

Lemma run_to_pandas_dangling σ v :
  type_of (heap σ) v = None → to_pandas v σ = (Stuck, σ).
Proof.
  intros Ht. unfold to_pandas, isinstance.
  rewrite !run_bind_assoc, run_bind, (run_type_None _ _ Ht). reflexivity.
Qed.

(** The ways [to_polars] can end: [df] handed back, a new polars DataFrame,
    or no value, and then only the call log can have grown. *)
Lemma to_polars_cases σ v :
  (∃ r g, v = VRef r ∧ heap σ !! r = Some (PlDataFrame g) ∧
          to_polars v σ = (Return v, σ)) ∨
  (∃ r f g, v = VRef r ∧ heap σ !! r = Some (PdDataFrame f) ∧
            to_polars v σ =
            (Return (VRef (fresh (dom (heap σ)))),
             State (<[fresh (dom (heap σ)) := PlDataFrame g]> (heap σ)) (world σ)
                   (calls σ ++ [Call_pl_from_pandas r]))) ∨
  (∃ o cs, to_polars v σ = (o, State (heap σ) (world σ) cs) ∧
           ∀ v', o ≠ Return v').
Proof.
  destruct (type_of (heap σ) v) as [c|] eqn:Hc.
  - destruct (decide (c = cls_pd_DataFrame)) as [->|Hpd].
    { destruct (type_of_pd _ _ Hc) as (r & f & -> & Hr).
      pose proof (run_to_polars_pd _ _ _ Hr) as Hrun. cbv zeta in Hrun.
      destruct (impl_from_pandas f) as [e|g].
      - right; right. eexists _, _. split; [exact Hrun | done].
      - right; left. by exists r, f, g. }
    destruct (decide (c = cls_pl_DataFrame)) as [->|Hpl].
    { destruct (type_of_pl _ _ Hc) as (r & g & -> & Hr).
      left. exists r, g. by rewrite (run_to_polars_pl _ _ _ Hr). }
    right; right. exists (Raise (TypeError (expected_got c))), (calls σ).
    rewrite (run_to_polars_unsupported _ _ _ Hc Hpd Hpl). by destruct σ.
  - right; right. exists Stuck, (calls σ).
    rewrite (run_to_polars_dangling _ _ Hc). by destruct σ.
Qed.

Lemma to_pandas_cases σ v :
  (∃ r f, v = VRef r ∧ heap σ !! r = Some (PdDataFrame f) ∧
          to_pandas v σ = (Return v, σ)) ∨
  (∃ r g f, v = VRef r ∧ heap σ !! r = Some (PlDataFrame g) ∧
            to_pandas v σ =
            (Return (VRef (fresh (dom (heap σ)))),
             State (<[fresh (dom (heap σ)) := PdDataFrame f]> (heap σ)) (world σ)
                   (calls σ ++ [Call_DataFrame_to_pandas r]))) ∨
  (∃ o cs, to_pandas v σ = (o, State (heap σ) (world σ) cs) ∧
           ∀ v', o ≠ Return v').
Proof.
  destruct (type_of (heap σ) v) as [c|] eqn:Hc.
  - destruct (decide (c = cls_pl_DataFrame)) as [->|Hpl].
    { destruct (type_of_pl _ _ Hc) as (r & g & -> & Hr).
      pose proof (run_to_pandas_pl _ _ _ Hr) as Hrun. cbv zeta in Hrun.
      destruct (impl_to_pandas g) as [e|f].
      - right; right. eexists _, _. split; [exact Hrun | done].
      - right; left. by exists r, g, f. }
    destruct (decide (c = cls_pd_DataFrame)) as [->|Hpd].
    { destruct (type_of_pd _ _ Hc) as (r & f & -> & Hr).
      left. exists r, f. by rewrite (run_to_pandas_pd _ _ _ Hr). }
    right; right. exists (Raise (TypeError (expected_got c))), (calls σ).
    rewrite (run_to_pandas_unsupported _ _ _ Hc Hpd Hpl). by destruct σ.
  - right; right. exists Stuck, (calls σ).
    rewrite (run_to_pandas_dangling _ _ Hc). by destruct σ.
Qed.

(** X1. Converting twice is converting once: the second [to_polars] (or
    [to_pandas]) hands back what the first returned, or is not reached. *)
Theorem conversion_idempotent σ v :
  (to_polars v ≫= to_polars) σ = to_polars v σ ∧
  (to_pandas v ≫= to_pandas) σ = to_pandas v σ.
Proof.
  split.
  - destruct (to_polars_cases σ v)
      as [(r & g & -> & Hr & Hrun)|[(r & f & g & -> & Hr & Hrun)|(o & cs & Hrun & Ho)]].
    + by rewrite (run_bind_Return _ _ _ _ _ Hrun).
    + rewrite (run_bind_Return _ _ _ _ _ Hrun), Hrun.
      apply (run_to_polars_pl _ _ g). cbn. apply lookup_insert_eq.
    + rewrite run_bind, Hrun. destruct o as [a|e|]; [by destruct (Ho a)|done..].
  - destruct (to_pandas_cases σ v)
      as [(r & f & -> & Hr & Hrun)|[(r & g & f & -> & Hr & Hrun)|(o & cs & Hrun & Ho)]].
    + by rewrite (run_bind_Return _ _ _ _ _ Hrun).
    + rewrite (run_bind_Return _ _ _ _ _ Hrun), Hrun.
      apply (run_to_pandas_pd _ _ f). cbn. apply lookup_insert_eq.
    + rewrite run_bind, Hrun. destruct o as [a|e|]; [by destruct (Ho a)|done..].
Qed.

(** X2. A conversion never returns the other representation: what
    [to_polars] returns refers to a polars DataFrame, what [to_pandas]
    returns to a pandas DataFrame, whatever the argument was. *)
Theorem conversion_returns_requested σ v :
  match to_polars v σ with
  | (Return v', σ') => ∃ g, frame_of (heap σ') v' = Some (inr g)
  | _ => True
  end ∧
  match to_pandas v σ with
  | (Return v', σ') => ∃ f, frame_of (heap σ') v' = Some (inl f)
  | _ => True
  end.
Proof.
  split.
  - destruct (to_polars_cases σ v)
      as [(r & g & -> & Hr & Hrun)|[(r & f & g & -> & Hr & Hrun)|(o & cs & Hrun & Ho)]];
      rewrite Hrun.
    + exists g. cbn. by rewrite Hr.
    + exists g. cbn. by rewrite lookup_insert_eq.
    + destruct o as [a|e|]; [by destruct (Ho a)|done..].
  - destruct (to_pandas_cases σ v)
      as [(r & f & -> & Hr & Hrun)|[(r & g & f & -> & Hr & Hrun)|(o & cs & Hrun & Ho)]];
      rewrite Hrun.
    + exists f. cbn. by rewrite Hr.
    + exists f. cbn. by rewrite lookup_insert_eq.
    + destruct o as [a|e|]; [by destruct (Ho a)|done..].
Qed.

(** X3. No function of the module changes or removes an object that exists
    when it is called: tables are never converted in place, and the
    dictionaries that are mutated are the ones made for the call. *)
Theorem existing_objects_untouched σ v filepath use_polars kw r o :
  heap σ !! r = Some o →
  heap (to_polars v σ).2 !! r = Some o ∧
  heap (to_pandas v σ).2 !! r = Some o ∧
  heap (compatible_read_csv filepath use_polars kw σ).2 !! r = Some o ∧
  heap (compatible_write_csv v filepath kw σ).2 !! r = Some o.
Proof.
  intros Hr. split; [|split; [|split]].
  - destruct (to_polars_cases σ v)
      as [(r' & g & -> & _ & Hrun)|[(r' & f & g & -> & _ & Hrun)|(o' & cs & Hrun & _)]];
      rewrite Hrun; cbn; [done| |done].
    by apply lookup_alloc.
  - destruct (to_pandas_cases σ v)
      as [(r' & f & -> & _ & Hrun)|[(r' & g & f & -> & _ & Hrun)|(o' & cs & Hrun & _)]];
      rewrite Hrun; cbn; [done| |done].
    by apply lookup_alloc.
  - rewrite run_compatible_read_csv. cbv zeta.
    pose proof (lookup_alloc _ _ _ (Dict kw) Hr) as Hr1.
    destruct (truthy use_polars).
    + destruct (impl_pl_read_csv _ _ _) as [[e|g] w]; cbn; [done|].
      by apply lookup_alloc.
    + destruct (impl_pd_read_csv _ _ _) as [[e|f] w]; cbn; [done|].
      by apply lookup_alloc.
  - by apply compatible_write_csv_frame.
Qed.

(** X4. Where a conversion has to convert, it calls the library's
    conversion once, on the argument: an exception of the library is raised
    as it is and nothing is allocated; otherwise the converted table is
    returned as an object that did not exist before. *)
Theorem conversion_calls_library_once σ v t :
  frame_of (heap σ) v = Some t →
  ∃ r, v = VRef r ∧
  match t with
  | inl f =>
      let res := to_polars v σ in
      calls res.2 = calls σ ++ [Call_pl_from_pandas r] ∧ world res.2 = world σ ∧
      match impl_from_pandas f with
      | inl e => res.1 = Raise e ∧ heap res.2 = heap σ
      | inr g => ∃ r', res.1 = Return (VRef r') ∧ heap σ !! r' = None ∧
                       heap res.2 = <[r' := PlDataFrame g]> (heap σ)
      end
  | inr g =>
      let res := to_pandas v σ in
      calls res.2 = calls σ ++ [Call_DataFrame_to_pandas r] ∧ world res.2 = world σ ∧
      match impl_to_pandas g with
      | inl e => res.1 = Raise e ∧ heap res.2 = heap σ
      | inr f => ∃ r', res.1 = Return (VRef r') ∧ heap σ !! r' = None ∧
                       heap res.2 = <[r' := PdDataFrame f]> (heap σ)
      end
  end.
Proof.
  destruct v as [| | | |r]; cbn [frame_of]; try done.
  destruct (heap σ !! r) as [[f|g|m|q]|] eqn:Hr; try done; intros [= <-];
    exists r; (split; [done|]); cbv zeta.
  - rewrite (run_to_polars_pd _ _ _ Hr). cbv zeta.
    destruct (impl_from_pandas f) as [e|g]; cbn; [done|].
    repeat split. eexists. repeat split.
    apply not_elem_of_dom, is_fresh.
  - rewrite (run_to_pandas_pl _ _ _ Hr). cbv zeta.
    destruct (impl_to_pandas g) as [e|f]; cbn; [done|].
    repeat split. eexists. repeat split.
    apply not_elem_of_dom, is_fresh.
Qed.

(** X5. Writing a polars DataFrame ends as polars' writer ends: its
    exception is raised as it is, its effect on the world is kept, and
    [None] is returned when it returns. *)
Theorem write_csv_polars_outcome σ r g filepath kw :
  heap σ !! r = Some (PlDataFrame g) →
  let res := compatible_write_csv (VRef r) filepath kw σ in
  let out := impl_write_csv g filepath (polars_kwargs_of kw) (world σ) in
  res.1 = match out.1 with inl e => Raise e | inr _ => Return VNone end ∧
  world res.2 = out.2.
Proof.
  intros Hr res out. subst res out.
  rewrite (run_compatible_write_csv_pl _ _ _ filepath kw Hr). cbv zeta.
  by destruct (impl_write_csv _ _ _ _) as [x w].
Qed.

(** X6. Options with neither [sep] nor [index] reach polars' writer as the
    caller gave them. *)
Theorem write_csv_polars_untranslated σ r g filepath kw :
  heap σ !! r = Some (PlDataFrame g) →
  kw !! "sep" = None → kw !! "index" = None →
  calls (compatible_write_csv (VRef r) filepath kw σ).2
  = calls σ ++ [Call_DataFrame_write_csv r filepath kw].
Proof.
  intros Hr Hsep Hindex.
  rewrite (run_compatible_write_csv_pl _ _ _ filepath kw Hr). cbv zeta.
  destruct (impl_write_csv _ _ _ _) as [x w]. cbn [snd calls].
  unfold polars_kwargs_of. rewrite Hsep.
  rewrite (delete_id kw "sep") by done. rewrite (delete_id kw "index") by done.
  by rewrite (right_id_L ∅ (∪)).
Qed.

(** X7. A table read by [compatible_read_csv] is written by the writer of
    the library that read it: polars' writer (with translated options)
    after [use_polars] true, pandas' writer after [use_polars] false. *)
Theorem read_then_write_same_library σ filepath use_polars kw v out kw' :
  (compatible_read_csv filepath use_polars kw σ).1 = Return v →
  let σ1 := (compatible_read_csv filepath use_polars kw σ).2 in
  ∃ r, v = VRef r ∧
       calls (compatible_write_csv v out kw' σ1).2
       = calls σ1 ++ [if truthy use_polars
                      then Call_DataFrame_write_csv r out (polars_kwargs_of kw')
                      else Call_DataFrame_to_csv r out kw'].
Proof.
  rewrite run_compatible_read_csv. cbv zeta.
  destruct (truthy use_polars).
  - destruct (impl_pl_read_csv _ _ _) as [[e|g] w]; cbn [fst snd]; [done|].
    intros [= <-]. eexists. split; [done|].
    erewrite run_compatible_write_csv_pl by (cbn; apply lookup_insert_eq).
    cbv zeta. by destruct (impl_write_csv _ _ _ _).
  - destruct (impl_pd_read_csv _ _ _) as [[e|f] w]; cbn [fst snd]; [done|].
    intros [= <-]. eexists. split; [done|].
    erewrite run_compatible_write_csv_pd by (cbn; apply lookup_insert_eq).
    by destruct (impl_to_csv _ _ _ _).
Qed.

(** X8. Ensuring the representation that was asked of the reader costs
    nothing: [to_polars] after a read with [use_polars] true, and
    [to_pandas] after a read with [use_polars] false, give the outcome and
    the state of the read alone. *)
Theorem read_then_ensure_is_read σ filepath use_polars kw :
  (compatible_read_csv filepath use_polars kw
     ≫= if truthy use_polars then ensure_polars else ensure_pandas) σ
  = compatible_read_csv filepath use_polars kw σ.
Proof.
  rewrite run_bind, run_compatible_read_csv. cbv zeta.
  destruct (truthy use_polars).
  - destruct (impl_pl_read_csv _ _ _) as [[e|g] w]; [done|].
    apply (run_to_polars_pl _ _ g). cbn. apply lookup_insert_eq.
  - destruct (impl_pd_read_csv _ _ _) as [[e|f] w]; [done|].
    apply (run_to_pandas_pd _ _ f). cbn. apply lookup_insert_eq.
Qed.

(** X9. No call of the module reaches into the libraries more than once:
    the conversions and the writer make one call or none, the reader
    exactly one. *)
Theorem at_most_one_library_call σ v filepath use_polars kw :
  (∃ cs, calls (to_polars v σ).2 = calls σ ++ cs ∧ length cs ≤ 1) ∧
  (∃ cs, calls (to_pandas v σ).2 = calls σ ++ cs ∧ length cs ≤ 1) ∧
  (∃ call, calls (compatible_read_csv filepath use_polars kw σ).2 = calls σ ++ [call]) ∧
  (∃ cs, calls (compatible_write_csv v filepath kw σ).2 = calls σ ++ cs ∧ length cs ≤ 1).
Proof.
  split; [|split; [|split]].
  - destruct (type_of (heap σ) v) as [c|] eqn:Hc.
    + destruct (decide (c = cls_pd_DataFrame)) as [->|Hpd].
      { destruct (type_of_pd _ _ Hc) as (r & f & -> & Hr).
        rewrite (run_to_polars_pd _ _ _ Hr). cbv zeta.
        exists [Call_pl_from_pandas r]. destruct (impl_from_pandas f); cbn; (split; [done | lia]). }
      destruct (decide (c = cls_pl_DataFrame)) as [->|Hpl].
      { destruct (type_of_pl _ _ Hc) as (r & g & -> & Hr).
        rewrite (run_to_polars_pl _ _ _ Hr). exists []. rewrite app_nil_r. cbn. split; [done | lia]. }
      rewrite (run_to_polars_unsupported _ _ _ Hc Hpd Hpl).
      exists []. rewrite app_nil_r. cbn. split; [done | lia].
    + rewrite (run_to_polars_dangling _ _ Hc). exists []. rewrite app_nil_r. cbn. split; [done | lia].
  - destruct (type_of (heap σ) v) as [c|] eqn:Hc.
    + destruct (decide (c = cls_pl_DataFrame)) as [->|Hpl].
      { destruct (type_of_pl _ _ Hc) as (r & g & -> & Hr).
        rewrite (run_to_pandas_pl _ _ _ Hr). cbv zeta.
        exists [Call_DataFrame_to_pandas r]. destruct (impl_to_pandas g); cbn; (split; [done | lia]). }
      destruct (decide (c = cls_pd_DataFrame)) as [->|Hpd].
      { destruct (type_of_pd _ _ Hc) as (r & f & -> & Hr).
        rewrite (run_to_pandas_pd _ _ _ Hr). exists []. rewrite app_nil_r. cbn. split; [done | lia]. }
      rewrite (run_to_pandas_unsupported _ _ _ Hc Hpd Hpl).
      exists []. rewrite app_nil_r. cbn. split; [done | lia].
    + rewrite (run_to_pandas_dangling _ _ Hc). exists []. rewrite app_nil_r. cbn. split; [done | lia].
  - rewrite run_compatible_read_csv. cbv zeta. destruct (truthy use_polars).
    + eexists. by destruct (impl_pl_read_csv _ _ _) as [[e|g] w].
    + eexists. by destruct (impl_pd_read_csv _ _ _) as [[e|f] w].
  - destruct (type_of (heap σ) v) as [c|] eqn:Hc.
    + destruct (decide (c = cls_pl_DataFrame)) as [->|Hpl].
      { destruct (type_of_pl _ _ Hc) as (r & g & -> & Hr).
        rewrite (run_compatible_write_csv_pl _ _ _ filepath kw Hr). cbv zeta.
        eexists [_]. destruct (impl_write_csv _ _ _ _); cbn; (split; [done | lia]). }
      destruct (decide (c = cls_pd_DataFrame)) as [->|Hpd].
      { destruct (type_of_pd _ _ Hc) as (r & f & -> & Hr).
        rewrite (run_compatible_write_csv_pd _ _ _ filepath kw Hr).
        eexists [_]. destruct (impl_to_csv _ _ _ _); cbn; (split; [done | lia]). }
      rewrite (run_compatible_write_csv_unsupported _ _ _ filepath kw Hc Hpd Hpl).
      exists []. rewrite app_nil_r. cbn. split; [done | lia].
    + rewrite (run_compatible_write_csv_dangling _ _ filepath kw Hc).
      exists []. rewrite app_nil_r. cbn. split; [done | lia].
Qed.
End Outcomes.

(** The further properties on the small instance. *)

Lemma existing_objects_untouched_witness :
  heap (to_polars (VRef 0) Toy.σ0).2 !! 0 = Some (PdDataFrame Toy.abc).
Proof.
  assert (H : heap Toy.σ0 !! 0 = Some (PdDataFrame Toy.abc)) by (vm_compute; reflexivity).
  exact (proj1 (existing_objects_untouched Toy.σ0 (VRef 0) "out.csv" (VBool true) ∅
                  0 _ H)).
Defined.

Lemma conversion_calls_library_once_witness :
  calls (to_polars (VRef 0) Toy.σ0).2 = [Call_pl_from_pandas 0].
Proof.
  assert (H : frame_of (heap Toy.σ0) (VRef 0) = Some (inl Toy.abc))
    by (vm_compute; reflexivity).
  destruct (conversion_calls_library_once Toy.σ0 (VRef 0) (inl Toy.abc) H)
    as (r & Hv & Hcalls & _).
  injection Hv as <-. exact Hcalls.
Defined.

Lemma write_csv_polars_outcome_witness :
  (compatible_write_csv (VRef 1) "out.csv" ∅ Toy.σ0).1 = Return VNone.
Proof.
  assert (H : heap Toy.σ0 !! 1 = Some (PlDataFrame Toy.abc)) by (vm_compute; reflexivity).
  exact (proj1 (write_csv_polars_outcome Toy.σ0 1 Toy.abc "out.csv" ∅ H)).
Defined.

Lemma write_csv_polars_untranslated_witness :
  calls (compatible_write_csv (VRef 1) "out.csv" ∅ Toy.σ0).2
  = calls Toy.σ0 ++ [Call_DataFrame_write_csv 1 "out.csv" ∅].
Proof.
  apply (write_csv_polars_untranslated Toy.σ0 1 Toy.abc "out.csv" ∅);
    vm_compute; reflexivity.
Defined.

Lemma read_then_write_same_library_witness :
  ∃ r, VRef 5 = VRef r ∧
       calls (compatible_write_csv (VRef 5) "out.csv" ∅
                (compatible_read_csv "in.csv" (VBool true) ∅ Toy.σ1).2).2
       = calls (compatible_read_csv "in.csv" (VBool true) ∅ Toy.σ1).2
         ++ [Call_DataFrame_write_csv r "out.csv" (polars_kwargs_of ∅)].
Proof.
  apply (read_then_write_same_library Toy.σ1 "in.csv" (VBool true) ∅ (VRef 5) "out.csv" ∅).
  vm_compute; reflexivity.
Defined.
